(** * Stim circuit parser, builder and detector resolver: a shallow embedding

    The development follows [circuit.cc]: the character level reader
    ([read_char] with one character of lookahead), the target arena
    ([jagged_data]) with operations that are (offset, length) views into
    it, the builder API ([append_op], [append_operation],
    [append_circuit]), the textual rendering ([operator<<]) and
    [list_detectors_and_observables].

    Conventions.
    - [int c] (a character or [EOF]) is a [Z]; the text is a list of
      characters and [read_char] returns [EOF] once it is exhausted.
    - 32-bit target words are [Z] with [Z.land], [Z.lor], [Z.shiftl];
      every word the reader builds is below [2^32], so no wrap occurs.
    - [size_t] counters ([num_qubits], [num_measurements]) are [Z]; vector
      sizes, offsets and lengths are [nat].
    - Code that throws returns [Throw] together with the circuit as it was
      when the exception left the function, so a mutation that precedes a
      throw is visible.
    - The gate table ([gate_data.h]) and the C library's [strtod] and
      stream output of [double] are parameters ([GateData], [FloatOps]). *)

From Stdlib Require Import ZArith Ascii String List Lia Bool QArith.
From stdpp Require Import gmap list.
Import ListNotations.

Local Open Scope string_scope.
Local Open Scope list_scope.
Local Open Scope Z_scope.

(** ** Characters *)

Definition EOF : Z := -1.

Definition ch (a : ascii) : Z := Z.of_N (N_of_ascii a).
Definition chr (c : Z) : ascii := ascii_of_N (Z.to_N c).

(** [read_char]: the next character of the text, or [EOF]. *)
Definition read_char (inp : list ascii) : Z * list ascii :=
  match inp with
  | [] => (EOF, [])
  | a :: rest => (ch a, rest)
  end.

Definition NL : Z := 10.
Definition TAB : Z := 9.

Definition is_name_char (c : Z) : bool :=
  ((ch "A" <=? c) && (c <=? ch "Z")) || ((ch "a" <=? c) && (c <=? ch "z"))
  || ((ch "0" <=? c) && (c <=? ch "9")) || (c =? ch "_").

Definition is_double_char (c : Z) : bool :=
  ((ch "0" <=? c) && (c <=? ch "9")) || (c =? ch ".") || (c =? ch "e")
  || (c =? ch "E") || (c =? ch "+") || (c =? ch "-").

Definition is_digit (c : Z) : bool := (ch "0" <=? c) && (c <=? ch "9").

(** [isspace] of the C locale: space, \t, \n, \v, \f, \r. *)
Definition isspace (c : Z) : bool := (c =? ch " ") || ((9 <=? c) && (c <=? 13)).

(** ** The parameters: floating point and the gate table *)

(** What the code needs of [double]: the constant 0, [==], [>= 0], the
    casts to and from [size_t], [strtod] (value and number of characters
    consumed) and the stream output of a [double]. *)
Record FloatOps : Type := {
  double : Type;
  d_zero : double;
  d_eqb : double -> double -> bool;
  d_nonneg : double -> bool;
  d_to_size_t : double -> Z;
  d_of_size_t : Z -> double;
  strtod : list ascii -> double * nat;
  d_print : double -> list ascii
}.

Record Gate : Type := {
  gate_name : string;
  gate_id : Z;
  gate_flags : Z
}.

(** Modelled from the spec: the gate flags of section 6. [gate_data.h] is
    not part of the sources; the code only tests single flags and unions
    of them, so each flag is one distinct bit. *)
Definition GATE_TAKES_PARENS_ARGUMENT : Z := 4.
Definition GATE_PRODUCES_RESULTS : Z := 8.
Definition GATE_IS_NOT_FUSABLE : Z := 16.
Definition GATE_IS_BLOCK : Z := 32.
Definition GATE_TARGETS_PAIRS : Z := 64.
Definition GATE_TARGETS_PAULI_STRING : Z := 128.
Definition GATE_ONLY_TARGETS_MEASUREMENT_RECORD : Z := 256.
Definition GATE_CAN_TARGET_MEASUREMENT_RECORD : Z := 512.

(** [gate.flags & FLAG] used as a condition. *)
Definition has_flag (g : Gate) (mask : Z) : bool := negb (Z.land (gate_flags g) mask =? 0).

(** [GATE_DATA.at(name)] ([None]: the lookup throws) and
    [gate_name_to_id]. *)
Record GateData : Type := {
  GATE_DATA_at : string -> option Gate;
  gate_name_to_id : string -> Z
}.

(** Modelled from the spec: the target word layout of section 3
    ([circuit.h] is not part of the sources). The record field starts at
    bit 28 and is four bits wide, so that it holds every lookback 1..15
    the reader stores with [dt << TARGET_RECORD_SHIFT]. *)
Definition TARGET_QUBIT_MASK : Z := 2 ^ 24 - 1.
Definition TARGET_PAULI_X_MASK : Z := 2 ^ 24.
Definition TARGET_PAULI_Z_MASK : Z := 2 ^ 25.
Definition TARGET_RECORD_SHIFT : Z := 28.
Definition TARGET_RECORD_MASK : Z := Z.shiftl 15 TARGET_RECORD_SHIFT.
Definition TARGET_INVERTED_MASK : Z := 2 ^ 31.

Inductive READ_CONDITION : Type :=
| READ_AS_LITTLE_AS_POSSIBLE
| READ_UNTIL_END_OF_BLOCK
| READ_UNTIL_END_OF_FILE.

Definition READ_CONDITION_eqb (a b : READ_CONDITION) : bool :=
  match a, b with
  | READ_AS_LITTLE_AS_POSSIBLE, READ_AS_LITTLE_AS_POSSIBLE => true
  | READ_UNTIL_END_OF_BLOCK, READ_UNTIL_END_OF_BLOCK => true
  | READ_UNTIL_END_OF_FILE, READ_UNTIL_END_OF_FILE => true
  | _, _ => false
  end.

(** A reader that can throw: the value or the message. *)
Definition Lex (A : Type) : Type := (A + string)%type.

(** ** Readers that do not touch the circuit *)

Fixpoint read_past_within_line_whitespace (c : Z) (inp : list ascii) {struct inp}
  : Z * list ascii :=
  if (c =? ch " ") || (c =? TAB) then
    match inp with
    | [] => (EOF, [])
    | a :: rest => read_past_within_line_whitespace (ch a) rest
    end
  else (c, inp).

(** The loop of [read_gate_name]: at most 32 name characters go into
    [name_buf]. *)
Fixpoint read_gate_name_buf (c : Z) (inp : list ascii) (name_buf : list ascii) {struct inp}
  : list ascii * Z * list ascii :=
  if is_name_char c && (length name_buf <? 32)%nat then
    match inp with
    | [] => (name_buf ++ [chr c], EOF, [])
    | a :: rest => read_gate_name_buf (ch a) rest (name_buf ++ [chr c])
    end
  else (name_buf, c, inp).

(** The loop of [read_non_negative_double]: at most 63 characters. *)
Fixpoint read_double_buf (c : Z) (inp : list ascii) (buf : list ascii) {struct inp}
  : list ascii * Z * list ascii :=
  if (length buf <? 63)%nat && is_double_char c then
    match inp with
    | [] => (buf ++ [chr c], EOF, [])
    | a :: rest => read_double_buf (ch a) rest (buf ++ [chr c])
    end
  else (buf, c, inp).

(** The do-while of [read_uint24_t], entered with a digit in [c]. *)
Fixpoint read_uint24_digits (result : Z) (c : Z) (inp : list ascii) {struct inp}
  : Lex (Z * Z * list ascii) :=
  let result := result * 10 + (c - ch "0") in
  if result >=? Z.shiftl 1 24 then inr "Number too large."
  else
    match inp with
    | [] => inl (result, EOF, [])
    | a :: rest =>
        if is_digit (ch a) then read_uint24_digits result (ch a) rest
        else inl (result, ch a, rest)
    end.

Definition read_uint24_t (c : Z) (inp : list ascii) : Lex (Z * Z * list ascii) :=
  if negb (is_digit c) then inr "Expected a digit but got "
  else read_uint24_digits 0 c inp.

(** [do { c = read_char(); } while (c != '\n' && c != EOF);] *)
Fixpoint skip_comment (inp : list ascii) : Z * list ascii :=
  match inp with
  | [] => (EOF, [])
  | a :: rest =>
      if negb (ch a =? NL) && negb (ch a =? EOF) then skip_comment rest
      else (ch a, rest)
  end.

Definition read_until_next_line_arg (c : Z) (inp : list ascii) : Lex (bool * Z * list ascii) :=
  if negb (c =? ch " ") && negb (c =? ch "#") && negb (c =? TAB) && negb (c =? NL)
     && negb (c =? ch "{") && negb (c =? EOF)
  then inr "Gate targets must be separated by spacing."
  else
    let '(c, inp) := read_past_within_line_whitespace c inp in
    let '(c, inp) := if c =? ch "#" then skip_comment inp else (c, inp) in
    inl (negb (c =? NL) && negb (c =? ch "{") && negb (c =? EOF), c, inp).

(** [read_past_dead_space_between_commands]: the two nested loops as one
    recursion on the text; [in_comment] says that the inner comment loop
    is running and [c] is the character it has just read. *)
Fixpoint dead_space (in_comment : bool) (c : Z) (inp : list ascii) {struct inp}
  : Z * list ascii :=
  if in_comment then
    if negb (c =? NL) && negb (c =? EOF) then
      match inp with
      | [] => (EOF, [])
      | a :: rest => dead_space true (ch a) rest
      end
    else if isspace c then
      match inp with
      | [] => (EOF, [])
      | a :: rest => dead_space false (ch a) rest
      end
    else (c, inp)
  else if isspace c then
    match inp with
    | [] => (EOF, [])
    | a :: rest => dead_space false (ch a) rest
    end
  else if c =? EOF then (c, inp)
  else if negb (c =? ch "#") then (c, inp)
  else
    match inp with
    | [] => (EOF, [])
    | a :: rest => dead_space true (ch a) rest
    end.

Definition read_past_dead_space_between_commands (c : Z) (inp : list ascii)
  : Z * list ascii :=
  dead_space false c inp.

(** ** Decimal output

    [out << n] for an unsigned integer: the decimal digits, no leading
    zero. The number of rounds is bounded by the number of bits. *)
Fixpoint dec_digits (fuel : nat) (n : Z) (acc : list ascii) : list ascii :=
  match fuel with
  | O => acc
  | S fuel =>
      let acc := chr (ch "0" + n mod 10) :: acc in
      if n <? 10 then acc else dec_digits fuel (n / 10) acc
  end.

Definition dec (n : Z) : list ascii := dec_digits (S (Z.to_nat (Z.log2 n))) n [].

(** [~x] on 32 bits. *)
Definition not32 (x : Z) : Z := 2 ^ 32 - 1 - x.

Record MeasurementSet : Type := { indices : list nat }.

(** [MeasurementSet::operator*=] *)
Definition MeasurementSet_imul (a b : MeasurementSet) : MeasurementSet :=
  {| indices := indices a ++ indices b |}.

Section Data.

(** The type of [double]. *)
Context {D : Type}.

(** ** Data model *)

(** A view into the arena of the owning circuit. *)
Record PointerRange : Type := {
  offset : nat;
  length_ : nat
}.

Record OperationData : Type := {
  arg : D;
  targets : PointerRange
}.

Record Operation : Type := {
  gate : Gate;
  target_data : OperationData
}.

Record Circuit : Type := {
  jagged_data : list Z;
  operations : list Operation;
  num_qubits : Z;
  num_measurements : Z
}.

Definition Circuit_new : Circuit :=
  {| jagged_data := []; operations := []; num_qubits := 0; num_measurements := 0 |}.

Definition mk_op (g : Gate) (a : D) (off len : nat) : Operation :=
  {| gate := g; target_data := {| arg := a; targets := {| offset := off; length_ := len |} |} |}.

(** The target words an operation of circuit [c] views. *)
Definition range_words (arena : list Z) (r : PointerRange) : list Z :=
  take (length_ r) (drop (offset r) arena).

Definition op_targets (c : Circuit) (op : Operation) : list Z :=
  range_words (jagged_data c) (targets (target_data op)).

Definition with_jagged_data (c : Circuit) (j : list Z) : Circuit :=
  {| jagged_data := j; operations := operations c;
     num_qubits := num_qubits c; num_measurements := num_measurements c |}.
Definition with_operations (c : Circuit) (ops : list Operation) : Circuit :=
  {| jagged_data := jagged_data c; operations := ops;
     num_qubits := num_qubits c; num_measurements := num_measurements c |}.
Definition with_num_qubits (c : Circuit) (n : Z) : Circuit :=
  {| jagged_data := jagged_data c; operations := operations c;
     num_qubits := n; num_measurements := num_measurements c |}.
Definition with_num_measurements (c : Circuit) (n : Z) : Circuit :=
  {| jagged_data := jagged_data c; operations := operations c;
     num_qubits := num_qubits c; num_measurements := n |}.

Definition push_target (c : Circuit) (w : Z) : Circuit :=
  with_jagged_data c (jagged_data c ++ [w]).
Definition push_operation (c : Circuit) (op : Operation) : Circuit :=
  with_operations c (operations c ++ [op]).
Definition note_qubit (c : Circuit) (q : Z) : Circuit :=
  with_num_qubits c (Z.max (num_qubits c) (q + 1)).

(** Results of code that mutates a circuit. *)
Inductive Res (A : Type) : Type :=
| Done (a : A) (circuit : Circuit)
| Throw (msg : string) (circuit : Circuit)
| OutOfFuel.

(** An operation as a caller hands it over: gate, argument and the words
    its range views in its own circuit. *)
Record OperationView : Type := {
  v_gate : Gate;
  v_arg : D;
  v_targets : list Z
}.

Definition view_of (c : Circuit) (op : Operation) : OperationView :=
  {| v_gate := gate op; v_arg := arg (target_data op); v_targets := op_targets c op |}.

(** The source of [append_circuit]: the circuit itself ([&circuit == this])
    or another one. *)
Inductive CircuitRef : Type :=
| This
| Other (circuit : Circuit).

End Data.

Arguments PointerRange : clear implicits.
Arguments OperationData D : clear implicits.
Arguments Operation D : clear implicits.
Arguments Circuit D : clear implicits.
Arguments Res D A : clear implicits.
Arguments OperationView D : clear implicits.
Arguments CircuitRef D : clear implicits.
Arguments Done {D A} a circuit.
Arguments Throw {D A} msg circuit.
Arguments OutOfFuel {D A}.

Section Stim.

Variable F : FloatOps.
Variable G : GateData.

Local Abbreviation Circuit := (Circuit (double F)).
Local Abbreviation Operation := (Operation (double F)).
Local Abbreviation OperationData := (OperationData (double F)).
Local Abbreviation Res := (Res (double F)).
Local Abbreviation OperationView := (OperationView (double F)).
Local Abbreviation CircuitRef := (CircuitRef (double F)).

(** ** Equality *)

Definition OperationData_eqb (c1 : Circuit) (d1 : OperationData)
    (c2 : Circuit) (d2 : OperationData) : bool :=
  d_eqb F (arg d1) (arg d2)
  && bool_decide (range_words (jagged_data c1) (targets d1)
                  = range_words (jagged_data c2) (targets d2)).

Definition Operation_can_fuse (a b : Operation) : bool :=
  (gate_id (gate a) =? gate_id (gate b))
  && d_eqb F (arg (target_data a)) (arg (target_data b))
  && negb (has_flag (gate a) GATE_IS_NOT_FUSABLE).

Definition Operation_eqb (c1 : Circuit) (a : Operation) (c2 : Circuit) (b : Operation) : bool :=
  (gate_id (gate a) =? gate_id (gate b))
  && OperationData_eqb c1 (target_data a) c2 (target_data b).

Fixpoint operations_eqb (c1 : Circuit) (l1 : list Operation)
    (c2 : Circuit) (l2 : list Operation) : bool :=
  match l1, l2 with
  | [], [] => true
  | a :: l1, b :: l2 => Operation_eqb c1 a c2 b && operations_eqb c1 l1 c2 l2
  | _, _ => false
  end.

Definition Circuit_eqb (c1 c2 : Circuit) : bool :=
  (num_qubits c1 =? num_qubits c2)
  && (num_measurements c1 =? num_measurements c2)
  && operations_eqb c1 (operations c1) c2 (operations c2).

(** ** Readers that fill the circuit *)

Definition read_raw_qubit_target_into (c : Z) (inp : list ascii) (circuit : Circuit)
  : Res (Z * list ascii) :=
  match read_uint24_t c inp with
  | inr e => Throw e circuit
  | inl (q, c, inp) => Done (c, inp) (note_qubit (push_target circuit q) q)
  end.

Definition read_record_target_into (required : bool) (c : Z) (inp : list ascii)
    (circuit : Circuit) : Res (Z * list ascii) :=
  match read_uint24_t c inp with
  | inr e => Throw e circuit
  | inl (q, c, inp) =>
      let circuit := note_qubit circuit q in
      if c =? ch "@" then
        let '(c1, inp) := read_char inp in
        if negb (c1 =? ch "-") then
          Throw "Missing - after @ in record target (like '2@-3')" circuit
        else
          let '(c, inp) := read_char inp in
          match read_uint24_t c inp with
          | inr e => Throw e circuit
          | inl (dt, c, inp) =>
              if dt =? 0 then
                Throw "Minimum lookback in record target (like 2@-3) is -1, not -0." circuit
              else if dt >=? 16 then
                Throw "Maximum lookback in record target (like 2@-3) is -15." circuit
              else
                Done (c, inp) (push_target circuit (Z.lor q (Z.shiftl dt TARGET_RECORD_SHIFT)))
          end
      else if required then Throw "Missing @ in record target (like '2@-3')" circuit
      else Done (c, inp) (push_target circuit (Z.lor q (Z.shiftl 0 TARGET_RECORD_SHIFT)))
  end.

(** One round of the loop of [read_pauli_targets_into]. *)
Definition read_pauli_target_into (c : Z) (inp : list ascii) (circuit : Circuit)
  : Res (Z * list ascii) :=
  let m :=
    if (c =? ch "X") || (c =? ch "x") then Some TARGET_PAULI_X_MASK
    else if (c =? ch "Y") || (c =? ch "y") then Some (Z.lor TARGET_PAULI_X_MASK TARGET_PAULI_Z_MASK)
    else if (c =? ch "Z") || (c =? ch "z") then Some TARGET_PAULI_Z_MASK
    else None in
  match m with
  | None => Throw "Expected a Pauli (X or Y or Z) but got " circuit
  | Some m =>
      let '(c, inp) := read_char inp in
      if c =? ch " " then
        Throw "Unexpected space after Pauli before target qubit index." circuit
      else
        match read_uint24_t c inp with
        | inr e => Throw e circuit
        | inl (q, c, inp) => Done (c, inp) (note_qubit (push_target circuit (Z.lor q m)) q)
        end
  end.

(** One round of the loop of [read_result_targets_into]. *)
Definition read_result_target_into (c : Z) (inp : list ascii) (circuit : Circuit)
  : Res (Z * list ascii) :=
  let flipped := if c =? ch "!" then Z.shiftl 1 31 else 0 in
  let '(c, inp) := if negb (flipped =? 0) then read_char inp else (c, inp) in
  match read_uint24_t c inp with
  | inr e => Throw e circuit
  | inl (q, c, inp) =>
      let circuit := push_target (note_qubit circuit q) (Z.lxor q flipped) in
      Done (c, inp) (with_num_measurements circuit (num_measurements circuit + 1))
  end.

(** One round of the last loop of [circuit_read_single_operation]: the
    number is pushed and [num_qubits] is left alone. *)
Definition read_plain_target_into (c : Z) (inp : list ascii) (circuit : Circuit)
  : Res (Z * list ascii) :=
  match read_uint24_t c inp with
  | inr e => Throw e circuit
  | inl (q, c, inp) => Done (c, inp) (push_target circuit q)
  end.

(** [while (read_until_next_line_arg(c, read_char)) { read_one }]: the
    shape shared by the target loops. Every round that goes on consumes a
    character, so [fuel] above the length of the text never runs out. *)
Fixpoint read_targets_loop
    (read_one : Z -> list ascii -> Circuit -> Res (Z * list ascii))
    (fuel : nat) (c : Z) (inp : list ascii) (circuit : Circuit) {struct fuel}
  : Res (Z * list ascii) :=
  match fuel with
  | O => OutOfFuel
  | S fuel =>
      match read_until_next_line_arg c inp with
      | inr e => Throw e circuit
      | inl (true, c, inp) =>
          match read_one c inp circuit with
          | Done (c, inp) circuit => read_targets_loop read_one fuel c inp circuit
          | Throw e circuit => Throw e circuit
          | OutOfFuel => OutOfFuel
          end
      | inl (false, c, inp) => Done (c, inp) circuit
      end
  end.

Definition read_raw_qubit_targets_into := read_targets_loop read_raw_qubit_target_into.
Definition read_classically_controllable_qubit_targets_into :=
  read_targets_loop (read_record_target_into false).
Definition read_pauli_targets_into := read_targets_loop read_pauli_target_into.
Definition read_result_targets_into := read_targets_loop read_result_target_into.
Definition read_record_targets_into := read_targets_loop (read_record_target_into true).

Definition read_gate_name (c : Z) (inp : list ascii) : Lex (Gate * Z * list ascii) :=
  let '(name_buf, c, inp) := read_gate_name_buf c inp [] in
  match GATE_DATA_at G (string_of_list_ascii name_buf) with
  | Some g => inl (g, c, inp)
  | None => inr ("Gate not found " ++ string_of_list_ascii name_buf)%string
  end.

Definition read_non_negative_double (c : Z) (inp : list ascii)
  : Lex (double F * Z * list ascii) :=
  let '(buf, c, inp) := read_double_buf c inp [] in
  let '(result, endp) := strtod F buf in
  if negb (endp =? length buf)%nat || negb (d_nonneg F result) then
    inr ("Not a non-negative real number: " ++ string_of_list_ascii buf)%string
  else inl (result, c, inp).

Definition read_parens_argument (c : Z) (g : Gate) (inp : list ascii)
  : Lex (double F * Z * list ascii) :=
  if negb (c =? ch "(") then
    inr ("Gate " ++ gate_name g ++ "(X) missing a parens argument.")%string
  else
    let '(c, inp) := read_char inp in
    let '(c, inp) := read_past_within_line_whitespace c inp in
    match read_non_negative_double c inp with
    | inr e => inr e
    | inl (result, c, inp) =>
        let '(c, inp) := read_past_within_line_whitespace c inp in
        if negb (c =? ch ")") then
          inr ("Gate " ++ gate_name g ++ "(X) missing a closing parens for its argument.")%string
        else
          let '(c, inp) := read_char inp in
          inl (result, c, inp)
    end.

(** The first pair [(ws[k], ws[k+1])], [k] even, of equal words. *)
Fixpoint find_self_interaction (ws : list Z) : option Z :=
  match ws with
  | a :: b :: rest => if a =? b then Some a else find_self_interaction rest
  | _ => None
  end.

Definition any_flag (g : Gate) (masks : list Z) : bool :=
  negb (Z.land (gate_flags g) (foldr Z.lor 0 masks) =? 0).

Definition circuit_read_single_operation (fuel : nat) (circuit : Circuit)
    (lead_char : Z) (inp : list ascii) : Res (Z * list ascii) :=
  let c := lead_char in
  match read_gate_name c inp with
  | inr e => Throw e circuit
  | inl (g, c, inp) =>
      let parens :=
        if has_flag g GATE_TAKES_PARENS_ARGUMENT then
          let '(c, inp) := read_past_within_line_whitespace c inp in
          read_parens_argument c g inp
        else inl (d_zero F, c, inp) in
      match parens with
      | inr e => Throw e circuit
      | inl (val, c, inp) =>
          let offset := length (jagged_data circuit) in
          let read_targets :=
            if negb (any_flag g [GATE_IS_BLOCK; GATE_ONLY_TARGETS_MEASUREMENT_RECORD;
                                 GATE_PRODUCES_RESULTS; GATE_TARGETS_PAULI_STRING;
                                 GATE_CAN_TARGET_MEASUREMENT_RECORD])
            then read_raw_qubit_targets_into
            else if has_flag g GATE_ONLY_TARGETS_MEASUREMENT_RECORD then read_record_targets_into
            else if has_flag g GATE_CAN_TARGET_MEASUREMENT_RECORD
            then read_classically_controllable_qubit_targets_into
            else if has_flag g GATE_PRODUCES_RESULTS then read_result_targets_into
            else if has_flag g GATE_TARGETS_PAULI_STRING then read_pauli_targets_into
            else read_targets_loop read_plain_target_into in
          match read_targets fuel c inp circuit with
          | OutOfFuel => OutOfFuel
          | Throw e circuit => Throw e circuit
          | Done (c, inp) circuit =>
              if negb (c =? ch "{") && (has_flag g GATE_IS_BLOCK && negb (c =? ch "{")) then
                Throw ("Missing '{' at start of " ++ gate_name g ++ " block.")%string circuit
              else if (c =? ch "{") && negb (has_flag g GATE_IS_BLOCK) then
                Throw ("Unexpected '{' after non-block command " ++ gate_name g ++ ".")%string
                      circuit
              else
                let num_targets := (length (jagged_data circuit) - offset)%nat in
                let pairs_error :=
                  if has_flag g GATE_TARGETS_PAIRS then
                    if Nat.odd num_targets then
                      Some ("Two qubit gate " ++ gate_name g
                            ++ " applied to an odd number of targets.")%string
                    else
                      match find_self_interaction (drop offset (jagged_data circuit)) with
                      | Some _ =>
                          Some ("Interacting a target with itself using gate "
                                ++ gate_name g ++ ".")%string
                      | None => None
                      end
                  else None in
                match pairs_error with
                | Some e => Throw e circuit
                | None => Done (c, inp) (push_operation circuit (mk_op g val offset num_targets))
                end
          end
      end
  end.

(** [ops.insert(ops.end(), ops.data() + ops_start, ops.data() + ops_end)],
    [n] times. *)
Fixpoint append_copies (n : nat) (ops block : list Operation) : list Operation :=
  match n with
  | O => ops
  | S n => append_copies n (ops ++ block) block
  end.

(** The loop of [circuit_read_operations]; [can_fuse] is its local
    variable. One round consumes at least one character, and so does the
    nested call for a block. *)
Fixpoint circuit_read_operations_loop (fuel : nat) (circuit : Circuit) (inp : list ascii)
    (read_condition : READ_CONDITION) (can_fuse : bool) {struct fuel} : Res (list ascii) :=
  match fuel with
  | O => OutOfFuel
  | S fuel =>
      let '(c, inp) := read_char inp in
      let '(c, inp) := read_past_dead_space_between_commands c inp in
      if c =? EOF then
        if READ_CONDITION_eqb read_condition READ_UNTIL_END_OF_BLOCK then
          Throw "Unterminated block. Got a '{' without an eventual '}'." circuit
        else Done inp circuit
      else if c =? ch "}" then
        if negb (READ_CONDITION_eqb read_condition READ_UNTIL_END_OF_BLOCK) then
          Throw "Uninitiated block. Got a '}' without a '{'." circuit
        else Done inp circuit
      else
        let s := length (operations circuit) in
        match circuit_read_single_operation fuel circuit c inp with
        | OutOfFuel => OutOfFuel
        | Throw e circuit => Throw e circuit
        | Done (_, inp) circuit =>
            let again circuit inp can_fuse :=
              if READ_CONDITION_eqb read_condition READ_AS_LITTLE_AS_POSSIBLE
              then Done inp circuit
              else circuit_read_operations_loop fuel circuit inp read_condition can_fuse in
            match operations circuit !! s with
            | None => Throw "unreachable: no operation was pushed" circuit
            | Some op_s =>
                if gate_id (gate op_s) =? gate_name_to_id G "REPEAT" then
                  if negb (length_ (targets (target_data op_s)) =? 1)%nat then
                    Throw "Invalid instruction. Expected one repetition arg like `REPEAT 100 {`."
                          circuit
                  else
                    let rep_count := List.last (jagged_data circuit) 0 in
                    let circuit := with_jagged_data circuit (removelast (jagged_data circuit)) in
                    let circuit := with_operations circuit (removelast (operations circuit)) in
                    if rep_count =? 0 then Throw "Repeating 0 times is not supported." circuit
                    else
                      let ops_start := length (operations circuit) in
                      let num_measure_start := num_measurements circuit in
                      match circuit_read_operations_loop fuel circuit inp
                              READ_UNTIL_END_OF_BLOCK false with
                      | OutOfFuel => OutOfFuel
                      | Throw e circuit => Throw e circuit
                      | Done inp circuit =>
                          let circuit :=
                            with_num_measurements circuit
                              (num_measurements circuit
                               + (num_measurements circuit - num_measure_start) * (rep_count - 1)) in
                          let circuit :=
                            with_operations circuit
                              (append_copies (Z.to_nat (rep_count - 1)) (operations circuit)
                                 (drop ops_start (operations circuit))) in
                          again circuit inp false
                      end
                else
                  match (if can_fuse then operations circuit !! (s - 1)%nat else None) with
                  | Some op_p =>
                      if Operation_can_fuse op_p op_s then
                        let fused :=
                          mk_op (gate op_p) (arg (target_data op_p))
                                (offset (targets (target_data op_p)))
                                (length_ (targets (target_data op_p))
                                 + length_ (targets (target_data op_s))) in
                        let ops := <[(s - 1)%nat := fused]> (removelast (operations circuit)) in
                        again (with_operations circuit ops) inp can_fuse
                      else again circuit inp true
                  | None => again circuit inp true
                  end
            end
        end
  end.

Definition circuit_read_operations (fuel : nat) (circuit : Circuit) (inp : list ascii)
    (read_condition : READ_CONDITION) : Res (list ascii) :=
  circuit_read_operations_loop fuel circuit inp read_condition false.

(** [Circuit::append_from_text]; the fuel is above the length of the
    text. The result is [operations.size() > before]. *)
Definition append_from_text (circuit : Circuit) (text : string) : Res bool :=
  let before := length (operations circuit) in
  let inp := list_ascii_of_string text in
  match circuit_read_operations (S (length inp)) circuit inp READ_UNTIL_END_OF_FILE with
  | Done _ circuit => Done (before <? length (operations circuit))%nat circuit
  | Throw e circuit => Throw e circuit
  | OutOfFuel => OutOfFuel
  end.

Definition from_text (text : string) : Res unit :=
  match append_from_text Circuit_new text with
  | Done _ circuit => Done tt circuit
  | Throw e circuit => Throw e circuit
  | OutOfFuel => OutOfFuel
  end.

(** ** The builder API *)

Definition Circuit_clear (circuit : Circuit) : Circuit := Circuit_new.

Definition _circuit_incremental_update_from_back (circuit : Circuit) : Circuit :=
  match last (operations circuit) with
  | None => circuit
  | Some op =>
      let vec := op_targets circuit op in
      let circuit :=
        if has_flag (gate op) GATE_PRODUCES_RESULTS
        then with_num_measurements circuit
               (num_measurements circuit + Z.of_nat (length_ (targets (target_data op))))
        else circuit in
      fold_left
        (fun circuit q =>
           with_num_qubits circuit (Z.max (num_qubits circuit) (Z.land q TARGET_QUBIT_MASK + 1)))
        vec circuit
  end.

Definition append_operation (circuit : Circuit) (operation : OperationView) : Circuit :=
  let converted :=
    mk_op (v_gate operation) (v_arg operation) (length (jagged_data circuit))
          (length (v_targets operation)) in
  let circuit := push_operation circuit converted in
  let circuit := with_jagged_data circuit (jagged_data circuit ++ v_targets operation) in
  _circuit_incremental_update_from_back circuit.

Definition append_circuit (self : Circuit) (circuit : CircuitRef) (repetitions : Z) : Circuit :=
  if repetitions =? 0 then self
  else
    let original_size := length (operations self) in
    match circuit with
    | This =>
        let self := with_num_measurements self (num_measurements self * (repetitions + 1)) in
        with_operations self
          (append_copies (Z.to_nat repetitions) (operations self)
             (take original_size (operations self)))
    | Other circuit =>
        let self :=
          fold_left (fun self op => append_operation self (view_of circuit op))
                    (operations circuit) self in
        with_operations self
          (append_copies (Z.to_nat (repetitions - 1)) (operations self)
             (drop original_size (operations self)))
    end.

Definition valid_target_mask (g : Gate) : Z :=
  let m := TARGET_QUBIT_MASK in
  let m := if has_flag g GATE_PRODUCES_RESULTS then Z.lor m TARGET_INVERTED_MASK else m in
  let m := if has_flag g GATE_TARGETS_PAULI_STRING
           then Z.lor m (Z.lor TARGET_PAULI_X_MASK TARGET_PAULI_Z_MASK) else m in
  if any_flag g [GATE_ONLY_TARGETS_MEASUREMENT_RECORD; GATE_CAN_TARGET_MEASUREMENT_RECORD]
  then Z.lor m TARGET_RECORD_MASK else m.

Definition append_op (circuit : Circuit) (gate_name : string) (vec : list Z)
    (arg_ : double F) (allow_fusing : bool) : Res unit :=
  match GATE_DATA_at G gate_name with
  | None => Throw ("Gate not found " ++ gate_name)%string circuit
  | Some g =>
      let pairs_error :=
        if has_flag g GATE_TARGETS_PAIRS then
          if Nat.odd (length vec) then
            Some ("Two qubit gate " ++ gate_name ++ " requires have an even number of targets.")%string
          else
            match find_self_interaction vec with
            | Some _ => Some ("Interacting a target with itself using gate " ++ gate_name ++ ".")%string
            | None => None
            end
        else None in
      match pairs_error with
      | Some e => Throw e circuit
      | None =>
          if negb (d_eqb F arg_ (d_zero F)) && negb (has_flag g GATE_TAKES_PARENS_ARGUMENT) then
            Throw ("Gate " ++ gate_name ++ " doesn't take a parens arg.")%string circuit
          else if negb (forallb (fun q => q =? Z.land q (valid_target_mask g)) vec) then
            Throw ("Target has invalid flags for gate " ++ gate_name ++ ".")%string circuit
          else
            let fuse :=
              if allow_fusing && negb (has_flag g GATE_IS_NOT_FUSABLE) then
                match last (operations circuit) with
                | Some back =>
                    if (gate_id (gate back) =? gate_id g) && d_eqb F (arg (target_data back)) arg_
                    then Some back else None
                | None => None
                end
              else None in
            let circuit :=
              match fuse with
              | Some back =>
                  let circuit :=
                    if has_flag g GATE_PRODUCES_RESULTS
                    then with_num_measurements circuit
                           (num_measurements circuit
                            - Z.of_nat (length_ (targets (target_data back))))
                    else circuit in
                  let circuit := with_jagged_data circuit (jagged_data circuit ++ vec) in
                  let back' :=
                    mk_op (gate back) (arg (target_data back))
                          (offset (targets (target_data back)))
                          (length_ (targets (target_data back)) + length vec) in
                  with_operations circuit (removelast (operations circuit) ++ [back'])
              | None =>
                  let converted := mk_op g arg_ (length (jagged_data circuit)) (length vec) in
                  let circuit := push_operation circuit converted in
                  with_jagged_data circuit (jagged_data circuit ++ vec)
              end in
            Done tt (_circuit_incremental_update_from_back circuit)
      end
  end.

Definition Circuit_iadd (self : Circuit) (other : CircuitRef) : Circuit :=
  append_circuit self other 1.

Definition Circuit_imul (self : Circuit) (repetitions : Z) : Circuit :=
  if repetitions =? 0 then Circuit_clear self
  else append_circuit self This (repetitions - 1).

(** ** Textual rendering *)

Definition target_str (g : Gate) (t : Z) : list ascii :=
  if has_flag g GATE_PRODUCES_RESULTS then
    (if negb (Z.land t (Z.shiftl 1 31) =? 0) then ["!"%char] else [])
    ++ dec (Z.land t (not32 (Z.shiftl 1 31)))
  else if has_flag g GATE_TARGETS_PAULI_STRING then
    let x := negb (Z.land t TARGET_PAULI_X_MASK =? 0) in
    let z := negb (Z.land t TARGET_PAULI_Z_MASK =? 0) in
    nth ((if x then 1 else 0) + (if z then 2 else 0))%nat (list_ascii_of_string "IXZY") "I"%char
    :: dec (Z.land t TARGET_QUBIT_MASK)
  else
    dec (Z.land t TARGET_QUBIT_MASK)
    ++ (if negb (Z.land t TARGET_RECORD_MASK =? 0) then
          "@"%char :: "-"%char
          :: dec (Z.shiftr (Z.land t TARGET_RECORD_MASK) TARGET_RECORD_SHIFT)
        else []).

Definition arg_str (a : double F) : list ascii :=
  if d_eqb F (d_of_size_t F (d_to_size_t F a)) a then dec (d_to_size_t F a)
  else d_print F a.

Definition Operation_str (c : Circuit) (op : Operation) : list ascii :=
  list_ascii_of_string (gate_name (gate op))
  ++ (if negb (d_eqb F (arg (target_data op)) (d_zero F))
      then "("%char :: arg_str (arg (target_data op)) ++ [")"%char] else [])
  ++ concat (map (fun t => " "%char :: target_str (gate op) t) (op_targets c op)).

Definition Circuit_str (c : Circuit) : string :=
  string_of_list_ascii
    (list_ascii_of_string "# Circuit [num_qubits=" ++ dec (num_qubits c)
     ++ list_ascii_of_string ", num_measurements=" ++ dec (num_measurements c)
     ++ ["]"%char]
     ++ concat (map (fun op => chr NL :: Operation_str c op) (operations c))).

(** ** Detectors and observables *)

(** The lambda [resolve]; [qubit_measure_indices\[q\]] creates an empty
    entry when there is none. *)
Fixpoint resolve_targets (ts : list Z) (qubit_measure_indices : gmap Z (list nat))
    (result : MeasurementSet) : Lex MeasurementSet * gmap Z (list nat) :=
  match ts with
  | [] => (inl result, qubit_measure_indices)
  | qb :: ts =>
      let q := Z.land qb TARGET_QUBIT_MASK in
      let dt := Z.shiftr (Z.land qb TARGET_RECORD_MASK) TARGET_RECORD_SHIFT in
      if dt =? 0 then (inr "Record lookback can't be 0 (unspecified).", qubit_measure_indices)
      else
        let v := default [] (qubit_measure_indices !! q) in
        let qubit_measure_indices := <[q := v]> qubit_measure_indices in
        if dt >? Z.of_nat (length v) then
          (inr "Referred to a measurement result before the beginning of time.",
           qubit_measure_indices)
        else
          resolve_targets ts qubit_measure_indices
            {| indices := indices result ++ [nth (length v - Z.to_nat dt)%nat v 0%nat] |}
  end.

Definition resolve (c : Circuit) (qubit_measure_indices : gmap Z (list nat)) (op : Operation)
  : Lex MeasurementSet * gmap Z (list nat) :=
  resolve_targets (op_targets c op) qubit_measure_indices {| indices := [] |}.

(** [qubit_measure_indices\[target & TARGET_QUBIT_MASK\].push_back(m++)]
    for every target. *)
Fixpoint record_measurements (ts : list Z) (qubit_measure_indices : gmap Z (list nat))
    (m : nat) : gmap Z (list nat) * nat :=
  match ts with
  | [] => (qubit_measure_indices, m)
  | target :: ts =>
      let q := Z.land target TARGET_QUBIT_MASK in
      record_measurements ts
        (<[q := default [] (qubit_measure_indices !! q) ++ [m]]> qubit_measure_indices)
        (S m)
  end.

Fixpoint list_detectors_loop (c : Circuit) (ops : list Operation)
    (qubit_measure_indices : gmap Z (list nat)) (m : nat)
    (detectors observables : list MeasurementSet)
  : Lex (list MeasurementSet * list MeasurementSet) :=
  match ops with
  | [] => inl (detectors, observables)
  | p :: ops =>
      if has_flag (gate p) GATE_PRODUCES_RESULTS then
        let '(qmi, m) := record_measurements (op_targets c p) qubit_measure_indices m in
        list_detectors_loop c ops qmi m detectors observables
      else if gate_id (gate p) =? gate_name_to_id G "DETECTOR" then
        match resolve c qubit_measure_indices p with
        | (inr e, _) => inr e
        | (inl r, qmi) => list_detectors_loop c ops qmi m (detectors ++ [r]) observables
        end
      else if gate_id (gate p) =? gate_name_to_id G "OBSERVABLE_INCLUDE" then
        let obs := d_to_size_t F (arg (target_data p)) in
        if negb (d_eqb F (d_of_size_t F obs) (arg (target_data p))) then
          inr "Observable index must be an integer."
        else
          let observables :=
            observables
            ++ replicate (S (Z.to_nat obs) - length observables) {| indices := [] |} in
          match resolve c qubit_measure_indices p with
          | (inr e, _) => inr e
          | (inl r, qmi) =>
              list_detectors_loop c ops qmi m detectors
                (alter (fun o => MeasurementSet_imul o r) (Z.to_nat obs) observables)
          end
      else list_detectors_loop c ops qubit_measure_indices m detectors observables
  end.

Definition list_detectors_and_observables (c : Circuit)
  : Lex (list MeasurementSet * list MeasurementSet) :=
  list_detectors_loop c (operations c) ∅ 0%nat [] [].

(** ** Specification-level definitions for the resolver *)

Definition target_qubit (t : Z) : Z := Z.land t TARGET_QUBIT_MASK.
Definition target_dt (t : Z) : Z :=
  Z.shiftr (Z.land t TARGET_RECORD_MASK) TARGET_RECORD_SHIFT.

(** The target words of the result-producing operations of [ops], in
    program order: the word at position [i] is measurement number [i]. *)
Definition result_targets (c : Circuit) (ops : list Operation) : list Z :=
  concat (map (fun p => if has_flag (gate p) GATE_PRODUCES_RESULTS
                        then op_targets c p else []) ops).

(** The measurement numbers, counted from [i], of the words of [ts] that
    are on qubit [q]. *)
Fixpoint indices_on (q : Z) (ts : list Z) (i : nat) : list nat :=
  match ts with
  | [] => []
  | t :: ts => (if target_qubit t =? q then [i] else []) ++ indices_on q ts (S i)
  end.

(** The measurement-index list of qubit [q] after the operations [pre]. *)
Definition qubit_history (c : Circuit) (pre : list Operation) (q : Z) : list nat :=
  indices_on q (result_targets c pre) 0.

(** The element at position [len - dt]. *)
Definition lookback (history : list nat) (dt : Z) : nat :=
  nth (length history - Z.to_nat dt)%nat history 0%nat.

(** The set an operation [p] that follows [pre] refers to. *)
Definition resolved (c : Circuit) (pre : list Operation) (p : Operation) : MeasurementSet :=
  {| indices := map (fun t => lookback (qubit_history c pre (target_qubit t)) (target_dt t))
                    (op_targets c p) |}.

Definition is_detector (p : Operation) : bool :=
  gate_id (gate p) =? gate_name_to_id G "DETECTOR".
Definition is_observable_include (p : Operation) : bool :=
  gate_id (gate p) =? gate_name_to_id G "OBSERVABLE_INCLUDE".
Definition observable_index (p : Operation) : Z := d_to_size_t F (arg (target_data p)).

(** One set per [DETECTOR] operation. *)
Fixpoint detectors_spec (c : Circuit) (pre ops : list Operation) : list MeasurementSet :=
  match ops with
  | [] => []
  | p :: ops =>
      (if is_detector p then [resolved c pre p] else [])
      ++ detectors_spec c (pre ++ [p]) ops
  end.

(** The [OBSERVABLE_INCLUDE] operations in program order: index and set. *)
Fixpoint observable_includes (c : Circuit) (pre ops : list Operation)
  : list (nat * MeasurementSet) :=
  match ops with
  | [] => []
  | p :: ops =>
      (if is_observable_include p then [(Z.to_nat (observable_index p), resolved c pre p)]
       else [])
      ++ observable_includes c (pre ++ [p]) ops
  end.

(** Entry [k]: the concatenation of the sets included with index [k]. *)
Definition observable_entry (incl : list (nat * MeasurementSet)) (k : nat) : MeasurementSet :=
  {| indices := concat (map (fun x => indices (snd x)) (filter (fun x => fst x = k) incl)) |}.

Definition observables_size (incl : list (nat * MeasurementSet)) : nat :=
  foldr (fun x n => Nat.max (S (fst x)) n) 0%nat incl.

Definition observables_spec (incl : list (nat * MeasurementSet)) : list MeasurementSet :=
  map (observable_entry incl) (seq 0 (observables_size incl)).

(** A target [q@-dt] with [1 <= dt <=] the number of measurements of [q]
    so far. *)
Definition valid_record_target (c : Circuit) (pre : list Operation) (t : Z) : Prop :=
  1 <= target_dt t <= Z.of_nat (length (qubit_history c pre (target_qubit t))).

(** What the resolver is promised about a circuit: [DETECTOR] and
    [OBSERVABLE_INCLUDE] operations are not result-producing, their targets
    are valid lookbacks, and the argument of [OBSERVABLE_INCLUDE] is a
    non-negative integer (it survives the cast to [size_t] and back). *)
Definition resolvable (c : Circuit) : Prop :=
  forall pre p post,
    operations c = pre ++ p :: post ->
    is_detector p = true \/ is_observable_include p = true ->
    has_flag (gate p) GATE_PRODUCES_RESULTS = false
    /\ Forall (valid_record_target c pre) (op_targets c p)
    /\ (is_observable_include p = true ->
        0 <= observable_index p
        /\ d_eqb F (d_of_size_t F (observable_index p)) (arg (target_data p)) = true).

End Stim.


(** ** A concrete instance

    The theorems below hold for every [FloatOps] and every [GateData]
    (under the hypotheses they state). The instance of this module is used
    to run the code on concrete texts. *)
Module Demo.

(** *** Decimal numbers as exact rationals *)

(** Digits at the head of [l]: their value on top of [acc], how many, and
    what follows. *)
Fixpoint take_digits (l : list ascii) (acc : Z) (n : nat) : Z * nat * list ascii :=
  match l with
  | a :: rest =>
      if is_digit (ch a) then take_digits rest (acc * 10 + (ch a - ch "0")) (S n)
      else (acc, n, l)
  | [] => (acc, n, l)
  end.

Definition take_sign (l : list ascii) : bool * nat * list ascii :=
  match l with
  | a :: rest =>
      if ch a =? ch "-" then (true, 1%nat, rest)
      else if ch a =? ch "+" then (false, 1%nat, rest)
      else (false, 0%nat, l)
  | [] => (false, 0%nat, l)
  end.

Definition pow10 (e : Z) : Q :=
  if 0 <=? e then inject_Z (10 ^ e) else Qinv (inject_Z (10 ^ (- e))).

(** [strtod] on a token made of digits, [.], [e], [E], [+] and [-]: the
    longest prefix of the form
    [sign? digits? (. digits?)? ((e|E) sign? digits)?] with at least one
    digit in the mantissa; value 0 and nothing consumed when there is
    none. The value is exact (no rounding to 53 bits). *)
Definition strtod_decimal (buf : list ascii) : Q * nat :=
  let '(neg, n0, l) := take_sign buf in
  let '(ip, n1, l) := take_digits l 0 0 in
  let '(mant, n2, nfrac, l) :=
    match l with
    | a :: rest =>
        if ch a =? ch "." then
          let '(m, k, l') := take_digits rest ip 0 in (m, S k, k, l')
        else (ip, 0%nat, 0%nat, l)
    | [] => (ip, 0%nat, 0%nat, l)
    end in
  if (n1 + nfrac =? 0)%nat then (0%Q, 0%nat)
  else
    let '(ex, n3) :=
      match l with
      | a :: rest =>
          if (ch a =? ch "e") || (ch a =? ch "E") then
            let '(eneg, k0, l') := take_sign rest in
            let '(e, k1, _) := take_digits l' 0 0 in
            if (k1 =? 0)%nat then (0, 0%nat)
            else ((if eneg then - e else e), S (k0 + k1))
          else (0, 0%nat)
      | [] => (0, 0%nat)
      end in
    let v := Qmult (inject_Z mant) (pow10 (ex - Z.of_nat nfrac)) in
    (Qred (if neg then Qopp v else v), (n0 + n1 + n2 + n3)%nat).

(** [(size_t)x]: truncation (the cast of a negative value is undefined in
    C++; here it gives 0). *)
Definition to_size_t (x : Q) : Z := Z.max 0 (Qnum x / Z.pos (Qden x)).

(** The decimal exponent of a positive rational: [10^e <= x < 10^(e+1)]. *)
Fixpoint exponent_up (fuel : nat) (x : Q) (e : Z) : Z :=
  match fuel with
  | O => e
  | S fuel => if Qle_bool 10 x then exponent_up fuel (Qdiv x 10) (e + 1) else e
  end.
Fixpoint exponent_down (fuel : nat) (x : Q) (e : Z) : Z :=
  match fuel with
  | O => e
  | S fuel => if Qle_bool 1 x then e else exponent_down fuel (Qmult x 10) (e - 1)
  end.
Definition exponent10 (x : Q) : Z :=
  if Qle_bool 1 x then exponent_up (S (Z.to_nat (Z.log2 (Qnum x)))) x 0
  else exponent_down (S (Pos.to_nat (Pos.size (Qden x)))) x 0.

Fixpoint strip_zeros (rev_digits : list ascii) : list ascii :=
  match rev_digits with
  | a :: rest => if ch a =? ch "0" then strip_zeros rest else rev_digits
  | [] => []
  end.

Definition pad_left (n : nat) (l : list ascii) : list ascii :=
  replicate (n - length l) "0"%char ++ l.

(** [out << x] for a positive [double] with the default precision of six
    significant digits ([%g]): fixed notation when the decimal exponent is
    in [-4 .. 5], scientific otherwise, trailing zeros removed. *)
Definition print (x : Q) : list ascii :=
  if Qle_bool x 0 then
    (if Qeq_bool x 0 then ["0"%char] else ["-"%char])
  else
    let e := exponent10 x in
    let scaled := Qmult x (pow10 (5 - e)) in
    let m := (2 * Qnum scaled + Z.pos (Qden scaled)) / (2 * Z.pos (Qden scaled)) in
    let '(m, e) := if 1000000 <=? m then (m / 10, e + 1) else (m, e) in
    let digits := pad_left 6 (dec m) in
    if (-4 <=? e) && (e <? 6) then
      if 0 <=? e then
        let ip := take (Z.to_nat (e + 1)) digits in
        let fp := rev (strip_zeros (rev (drop (Z.to_nat (e + 1)) digits))) in
        ip ++ (match fp with [] => [] | _ => "."%char :: fp end)
      else
        let fp := rev (strip_zeros (rev digits)) in
        "0"%char :: "."%char :: replicate (Z.to_nat (- e - 1)) "0"%char ++ fp
    else
      let fp := rev (strip_zeros (rev (drop 1 digits))) in
      take 1 digits ++ (match fp with [] => [] | _ => "."%char :: fp end)
      ++ ["e"%char; (if 0 <=? e then "+"%char else "-"%char)] ++ pad_left 2 (dec (Z.abs e)).

Definition float_ops : FloatOps :=
  {| double := Q;
     d_zero := 0%Q;
     d_eqb := Qeq_bool;
     d_nonneg := fun x => Qle_bool 0 x;
     d_to_size_t := to_size_t;
     d_of_size_t := inject_Z;
     strtod := strtod_decimal;
     d_print := print |}.

(** *** A gate table *)

Definition to_upper (a : ascii) : ascii :=
  if (ch "a" <=? ch a) && (ch a <=? ch "z") then chr (ch a - 32) else a.

Definition upper (s : string) : string :=
  string_of_list_ascii (map to_upper (list_ascii_of_string s)).

Definition mk_gate (name : string) (id : Z) (flags : list Z) : Gate :=
  {| gate_name := name; gate_id := id; gate_flags := foldr Z.lor 0 flags |}.

(** Modelled from the spec: a gate table with the gates that the scenarios
    of section 8 name, and one gate for every flag of section 6. Names are
    looked up without regard to case; the second component lists the other
    names of a gate. *)
Definition gates : list (Gate * list string) :=
  [ (mk_gate "H" 1 [], []);
    (mk_gate "X" 2 [], []);
    (mk_gate "Y" 3 [], []);
    (mk_gate "Z" 4 [], []);
    (mk_gate "CNOT" 5 [GATE_TARGETS_PAIRS; GATE_CAN_TARGET_MEASUREMENT_RECORD], ["CX"; "ZCX"]);
    (mk_gate "SWAP" 6 [GATE_TARGETS_PAIRS], []);
    (mk_gate "M" 7 [GATE_PRODUCES_RESULTS], ["MZ"]);
    (mk_gate "R" 8 [], ["RZ"]);
    (mk_gate "TICK" 9 [GATE_IS_NOT_FUSABLE], []);
    (mk_gate "X_ERROR" 10 [GATE_TAKES_PARENS_ARGUMENT], []);
    (mk_gate "DEPOLARIZE2" 11 [GATE_TAKES_PARENS_ARGUMENT; GATE_TARGETS_PAIRS], []);
    (mk_gate "E" 12 [GATE_TAKES_PARENS_ARGUMENT; GATE_TARGETS_PAULI_STRING; GATE_IS_NOT_FUSABLE],
     ["CORRELATED_ERROR"]);
    (mk_gate "DETECTOR" 13 [GATE_ONLY_TARGETS_MEASUREMENT_RECORD; GATE_IS_NOT_FUSABLE], []);
    (mk_gate "OBSERVABLE_INCLUDE" 14
       [GATE_ONLY_TARGETS_MEASUREMENT_RECORD; GATE_TAKES_PARENS_ARGUMENT; GATE_IS_NOT_FUSABLE], []);
    (mk_gate "REPEAT" 15 [GATE_IS_BLOCK; GATE_IS_NOT_FUSABLE], []) ].

Fixpoint find_gate (name : string) (l : list (Gate * list string)) : option Gate :=
  match l with
  | [] => None
  | (g, others) :: l =>
      if existsb (String.eqb name) (gate_name g :: others) then Some g else find_gate name l
  end.

Definition gate_data : GateData :=
  {| GATE_DATA_at := fun name => find_gate (upper name) gates;
     gate_name_to_id := fun name =>
       match find_gate (upper name) gates with Some g => gate_id g | None => 0 end |}.

Definition nl : string := String (chr NL) EmptyString.

(** The text of a list of lines, each ended by a line feed. *)
Definition lines (l : list string) : string :=
  fold_right (fun line acc => line ++ nl ++ acc)%string EmptyString l.

Definition parse (text : string) := from_text float_ops gate_data text.

(** What [operator==] looks at: for each operation the gate id, the
    argument and the target words, then the two counters. *)
Definition summary (r : Res Q unit)
  : option (list (string * Q * list Z) * Z * Z) :=
  match r with
  | Done _ c =>
      Some (map (fun op => (gate_name (gate op), arg (target_data op), op_targets c op))
                (operations c),
            num_qubits c, num_measurements c)
  | _ => None
  end.

End Demo.

(** * Properties *)

Section Builder.

Variable F : FloatOps.
Variable G : GateData.

(** [append_op] refuses the call: the gate is unknown, or a pairwise gate
    gets an odd number of targets or two equal words in a pair, or a
    nonzero argument goes to a gate without parens argument, or a word has
    a bit outside the gate's mask. *)
Definition append_op_refuses (gate_name : string) (vec : list Z) (a : double F) : Prop :=
  match GATE_DATA_at G gate_name with
  | None => True
  | Some g =>
      (has_flag g GATE_TARGETS_PAIRS = true
       /\ (Nat.odd (length vec) = true \/ find_self_interaction vec <> None))
      \/ (d_eqb F a (d_zero F) = false /\ has_flag g GATE_TAKES_PARENS_ARGUMENT = false)
      \/ Exists (fun q => q <> Z.land q (valid_target_mask g)) vec
  end.

Lemma forallb_mask_false (m : Z) (vec : list Z) :
  forallb (fun q => q =? Z.land q m) vec = false <-> Exists (fun q => q <> Z.land q m) vec.
Proof.
  induction vec as [|q vec IH]; simpl.
  - split; [discriminate | intros H; inversion H].
  - rewrite andb_false_iff, IH, Exists_cons, Z.eqb_neq. tauto.
Qed.

(** C10. [append_op] validates before it mutates: a call that throws leaves
    the circuit as it was, it throws exactly when [append_op_refuses]
    holds, and it never runs out of fuel (it has no loop that needs any). *)
Theorem append_op_atomic (circuit : Circuit (double F)) (gate_name : string) (vec : list Z)
    (a : double F) (allow_fusing : bool) :
  match append_op F G circuit gate_name vec a allow_fusing with
  | Throw _ circuit' => circuit' = circuit /\ append_op_refuses gate_name vec a
  | Done _ _ => ~ append_op_refuses gate_name vec a
  | OutOfFuel => False
  end.
Proof.
  unfold append_op, append_op_refuses.
  destruct (GATE_DATA_at G gate_name) as [g|]; [|split; trivial].
  destruct (has_flag g GATE_TARGETS_PAIRS) eqn:Hp.
  - destruct (Nat.odd (length vec)) eqn:Hodd; [split; auto|].
    destruct (find_self_interaction vec) eqn:Hs.
    + split; [reflexivity|]. left. split; [reflexivity|]. right. discriminate.
    + destruct (d_eqb F a (d_zero F)) eqn:Ha; simpl.
      * destruct (forallb _ vec) eqn:Hm; simpl.
        -- intros [[_ [H|H]]|[[H _]|H]]; try congruence.
           apply forallb_mask_false in H. congruence.
        -- split; [reflexivity|]. right. right. now apply forallb_mask_false.
      * destruct (has_flag g GATE_TAKES_PARENS_ARGUMENT) eqn:Hq; simpl.
        -- destruct (forallb _ vec) eqn:Hm; simpl.
           ++ intros [[_ [H|H]]|[[_ H]|H]]; try congruence.
              apply forallb_mask_false in H. congruence.
           ++ split; [reflexivity|]. right. right. now apply forallb_mask_false.
        -- split; auto.
  - destruct (d_eqb F a (d_zero F)) eqn:Ha; simpl.
    + destruct (forallb _ vec) eqn:Hm; simpl.
      * intros [[H _]|[[H _]|H]]; try congruence.
        apply forallb_mask_false in H. congruence.
      * split; [reflexivity|]. right. right. now apply forallb_mask_false.
    + destruct (has_flag g GATE_TAKES_PARENS_ARGUMENT) eqn:Hq; simpl.
      * destruct (forallb _ vec) eqn:Hm; simpl.
        -- intros [[H _]|[[_ H]|H]]; try congruence.
           apply forallb_mask_false in H. congruence.
        -- split; [reflexivity|]. right. right. now apply forallb_mask_false.
      * split; auto.
Qed.

(** C8, as the code has it. [append_circuit] with repetition count 0
    returns at once and leaves the circuit as it is, whatever the source;
    it is [operator*=] with 0 that clears: no operations, an empty arena
    and both counters 0. *)
Theorem append_circuit_zero_keeps_imul_zero_clears (C : Circuit (double F)) (S : CircuitRef (double F)) :
  append_circuit F C S 0 = C
  /\ operations (Circuit_imul F C 0) = []
  /\ jagged_data (Circuit_imul F C 0) = []
  /\ num_qubits (Circuit_imul F C 0) = 0
  /\ num_measurements (Circuit_imul F C 0) = 0.
Proof. repeat split. Qed.

End Builder.

(** The sum, over the operations whose gate produces results, of the
    number of targets. *)
Definition expected_measurements {D : Type} (c : Circuit D) : Z :=
  foldr (fun op acc =>
           if has_flag (gate op) GATE_PRODUCES_RESULTS
           then Z.of_nat (length_ (targets (target_data op))) + acc else acc)
        0 (operations c).

Module Examples.
Import Demo.

Definition circuit_of (r : Res Q unit) : Circuit Q :=
  match r with
  | Done _ c => c
  | Throw _ c => c
  | OutOfFuel => Circuit_new
  end.

Definition c_H0 : Circuit Q := circuit_of (parse (lines ["H 0"])).
Definition c_M0 : Circuit Q := circuit_of (parse (lines ["M 0"])).

(** C8, as stated, fails: appending [M 0] zero times to the circuit [H 0]
    leaves its operation in place. *)
Lemma append_circuit_zero_does_not_clear :
  operations (append_circuit float_ops c_H0 (Other c_M0) 0) <> [].
Proof. vm_compute. discriminate. Qed.

(** C3 at the failing input: appending the circuit [M 0] twice to an empty
    circuit gives two measurement operations and [num_measurements = 1]. *)
Lemma append_circuit_twice_miscounts :
  let c := append_circuit float_ops (Circuit_new) (Other c_M0) 2 in
  map (view_of c) (operations c)
  = [ {| v_gate := mk_gate "M" 7 [GATE_PRODUCES_RESULTS]; v_arg := 0%Q; v_targets := [0] |};
      {| v_gate := mk_gate "M" 7 [GATE_PRODUCES_RESULTS]; v_arg := 0%Q; v_targets := [0] |} ]
  /\ expected_measurements c = 2
  /\ num_measurements c = 1.
Proof. vm_compute. repeat split. Qed.

End Examples.
